(** * drivefair.api: driver assignment, notification dispatch and order ledger

    A shallow embedding of [server/models/driver.js] and
    [server/models/order.js].

    Conventions of the model:
    - a mongoose document is a record; [this] and every object the caller
      hands in and the code mutates ([item] in [addOrderItem]) live in the
      mutable part of the state, so that what was written before an
      exception is still there afterwards, as in JavaScript;
    - an [async] method is a computation in a state-and-exception monad:
      a rejected promise is [Throw], a fulfilled one is [Return];
    - every [await] of a collaborator (mongoose, bcrypt, the mail
      transport) first consults a fault script carried by the world: the
      script says, call after call, whether that call throws;
    - JavaScript numbers that hold money are modelled by exact integers
      (amounts in minor units); rounding of doubles is outside the model;
    - an [ObjectId] is an object: [!==] compares identities, while
      mongoose's [pull] compares values. *)

From Stdlib Require Import ZArith Lia.
From stdpp Require Import base option list strings gmap fin_maps pretty.

Open Scope string_scope.
Open Scope Z_scope.

(** ** JavaScript values the code looks at *)

(** A reference field of a document: absent, [null], or an [ObjectId]
    object.  [loc] is the identity of the object, [oid] the value. *)
Inductive jsref : Type :=
| JUndefined
| JNull
| JObjectId (loc : nat) (oid : nat).

(** [if (r)] *)
Definition truthy (r : jsref) : bool :=
  match r with
  | JObjectId _ _ => true
  | _ => false
  end.

(** [a !== b]: primitives by value, objects by identity. *)
Definition strict_neq (a b : jsref) : bool :=
  match a, b with
  | JUndefined, JUndefined => false
  | JNull, JNull => false
  | JObjectId l1 v1, JObjectId l2 v2 => negb ((l1 =? l2)%nat && (v1 =? v2)%nat)
  | _, _ => true
  end.

(** The vendor a reference designates, if any. *)
Definition ref_value (r : jsref) : option nat :=
  match r with
  | JObjectId _ v => Some v
  | _ => None
  end.

(** A thrown value. *)
Inductive exn : Type :=
| TypeError (msg : string)
| ExternalError (origin msg : string).

Inductive completion (A : Type) : Type :=
| Return (a : A)
| Throw (e : exn).
Arguments Return {A} a.
Arguments Throw {A} e.

(** [{error: {...}}]: the object literal under [error], a field that is
    not written being [None]. *)
Record ErrorInfo : Type := mkErrorInfo {
  message : option string;
  errorString : option string;
  functionName : option string;
  status : option Z;
}.

(** What a method hands back when its promise is fulfilled: a value, an
    [{error: {...}}] object, or the [{error, functionName}] object of
    [changeDisposition], whose [error] is the caught exception itself. *)
Inductive reply (A : Type) : Type :=
| Success (a : A)
| Failure (error : ErrorInfo)
| Caught (error : exn) (fn : string).
Arguments Success {A} a.
Arguments Failure {A} error.
Arguments Caught {A} error fn.

(** ** Data model *)

Record Driver : Type := mkDriver {
  d_id : nat;
  email : string;
  password : string;
  d_status : string;
  deviceTokens : list string;
  emailSettings : gmap string bool;
  notificationSettings : gmap string bool;
  orders : list jsref;
}.

Record Message : Type := mkMessage {
  messageType : option string;
  recipient : nat;
  recipientModel : string;
  sender : nat;
  senderModel : string;
  title : string;
  body : string;
  data : list (string * string);
  m_deviceTokens : list string;
}.

Record MenuItem : Type := mkMenuItem {
  mi_id : nat;
  mi_price : Z;
}.

Record ModOption : Type := mkModOption { price : Z }.

(** [modification.options]: an array of options, a single option object,
    or nothing. *)
Inductive options_field : Type :=
| OptArray (l : list ModOption)
| OptObject (o : ModOption)
| OptUndefined.

Record Modification : Type := mkModification { options : options_field }.

(** [item.modifications] (schema type [Object]): an array of modification
    entries, a single modification object, or nothing. *)
Inductive modifications_field : Type :=
| ModsArray (l : list Modification)
| ModsObject (m : Modification)
| ModsUndefined.

(** The [item] argument of [addOrderItem]. *)
Record Item : Type := mkItem {
  item_id : option nat;
  menuItem : MenuItem;
  item_price : Z;
  modifications : modifications_field;
}.

(** An [OrderItem] document without its [_id], which is the key under
    which the collection holds it. *)
Record OrderItem : Type := mkOrderItem {
  oi_menuItem : nat;
  oi_price : Z;
  oi_modifications : modifications_field;
}.

Record Order : Type := mkOrder {
  o_id : nat;
  o_vendor : jsref;
  o_driver : jsref;
  orderItems : list nat;
  total : Z;
  tip : option Z;
  disposition : string;
}.

(** ** The world outside the process *)

Record world : Type := mkWorld {
  faults : list (option exn);
  messageColl : list Message;
  orderItemColl : gmap nat OrderItem;
  savedDrivers : list Driver;
  savedOrders : list Order;
}.

Definition with_faults (fs : list (option exn)) (w : world) : world :=
  mkWorld fs (messageColl w) (orderItemColl w) (savedDrivers w) (savedOrders w).

(** The state of one call: the world and the in-memory objects. *)
Record mem (T : Type) : Type := mkMem { ext : world; self : T }.
Arguments mkMem {T} ext self.
Arguments ext {T} m.
Arguments self {T} m.

(** ** State and exception monad *)

Definition M (S A : Type) : Type := S → completion A * S.

#[global] Instance M_ret {S} : MRet (M S) := λ A a s, (Return a, s).

#[global] Instance M_bind {S} : MBind (M S) :=
  λ A B k m s, match m s with
               | (Return a, s') => k a s'
               | (Throw e, s') => (Throw e, s')
               end.

Definition throw {S A} (e : exn) : M S A := λ s, (Throw e, s).

Definition try_catch {S A} (block : M S A) (handler : exn → M S A) : M S A :=
  λ s, match block s with
       | (Return a, s') => (Return a, s')
       | (Throw e, s') => handler e s'
       end.

Definition this {T} : M (mem T) T := λ m, (Return (self m), m).

Definition update {T} (f : T → T) : M (mem T) unit :=
  λ m, (Return tt, mkMem (ext m) (f (self m))).

(** The exception the next collaborator call throws, if the script has
    one; an exhausted script has none. *)
Definition next_fault (w : world) : option exn :=
  match faults w with
  | Some e :: _ => Some e
  | _ => None
  end.

(** The world once the script has answered for one call. *)
Definition consume (w : world) : world := with_faults (tail (faults w)) w.

(** [await call]: the next entry of the fault script decides whether the
    collaborator throws; otherwise the call runs on the world. *)
Definition await {T A} (call : world → completion A * world) : M (mem T) A :=
  λ m, match next_fault (ext m) with
       | Some e => (Throw e, mkMem (consume (ext m)) (self m))
       | None => let '(r, w) := call (consume (ext m)) in (r, mkMem w (self m))
       end.

(** [array.forEach(callback)] with a callback that may throw. *)
Fixpoint forEach {S A} (l : list A) (callback : A → M S unit) : M S unit :=
  match l with
  | [] => mret tt
  | x :: l' => callback x;; forEach l' callback
  end.

(** ** Schema validation run by [save] *)

(** The options of a [String] path as the schema writes them.  Mongoose
    builds its enumeration validator from the key [enum] and ignores keys
    it does not know. *)
Record string_path : Type := mkStringPath {
  path_options : list (string * list string);
  path_default : string;
}.

Fixpoint option_of (key : string) (opts : list (string * list string))
  : option (list string) :=
  match opts with
  | [] => None
  | (k, v) :: opts' => if String.eqb k key then Some v else option_of key opts'
  end.

Definition enum_accepts (p : string_path) (v : string) : bool :=
  match option_of "enum" (path_options p) with
  | Some allowed => bool_decide (v ∈ allowed)
  | None => true
  end.

(** [status: { type: String, enum: ["ACTIVE", "INACTIVE"], default: "INACTIVE" }] *)
Definition status_path : string_path :=
  mkStringPath [("enum", ["ACTIVE"; "INACTIVE"])] "INACTIVE".

(** [disposition: { type: String, enums: [...], default: "NEW" }] *)
Definition disposition_path : string_path :=
  mkStringPath [("enums", ["NEW"; "PAID"; "COMPLETE"; "CANCELED"; "DELIVERED"])]
               "NEW".

(** The five dispositions the schema lists. *)
Definition dispositions : list string :=
  ["NEW"; "PAID"; "COMPLETE"; "CANCELED"; "DELIVERED"].

Definition ValidationError (msg : string) : exn :=
  ExternalError "ValidationError" msg.

(** [driverSchema], for the paths the methods read: [email] and [password]
    are required and bounded in length, [status] is enumerated. *)
Definition validate_driver (d : Driver) : option exn :=
  if String.eqb (email d) "" then Some (ValidationError "Email is required.")
  else if (64 <? String.length (email d))%nat
  then Some (ValidationError "email is longer than the maximum allowed length")
  else if String.eqb (password d) ""
  then Some (ValidationError "password is required.")
  else if (128 <? String.length (password d))%nat
  then Some (ValidationError "password is longer than the maximum allowed length")
  else if enum_accepts status_path (d_status d) then None
  else Some (ValidationError "status is not a valid enum value").

(** [orderSchema]: [tip] has [min: 0]; [disposition] has no validator. *)
Definition validate_order (o : Order) : option exn :=
  if enum_accepts disposition_path (disposition o) then
    match tip o with
    | Some t => if t <? 0 then Some (ValidationError "tip is less than minimum allowed value")
                else None
    | None => None
    end
  else Some (ValidationError "disposition is not a valid enum value").

(** ** Persistence calls *)

(** [driver.save()] *)
Definition Driver_save (d : Driver) (w : world) : completion unit * world :=
  match validate_driver d with
  | Some e => (Throw e, w)
  | None => (Return tt,
             mkWorld (faults w) (messageColl w) (orderItemColl w)
                     (savedDrivers w ++ [d]) (savedOrders w))
  end.

(** [order.save()] *)
Definition Order_save (o : Order) (w : world) : completion unit * world :=
  match validate_order o with
  | Some e => (Throw e, w)
  | None => (Return tt,
             mkWorld (faults w) (messageColl w) (orderItemColl w)
                     (savedDrivers w) (savedOrders w ++ [o]))
  end.

(** [message.save()] *)
Definition Message_save (m : Message) (w : world) : completion Message * world :=
  (Return m,
   mkWorld (faults w) (messageColl w ++ [m]) (orderItemColl w)
           (savedDrivers w) (savedOrders w)).

Definition with_orderItems (c : gmap nat OrderItem) (w : world) : world :=
  mkWorld (faults w) (messageColl w) c (savedDrivers w) (savedOrders w).

(** The [_id] of [new OrderItem({...item})]: the one the item carries, or
    a new one. *)
Definition new_id (it : Item) (w : world) : nat :=
  match item_id it with
  | Some i => i
  | None => fresh (dom (orderItemColl w))
  end.

(** [new OrderItem({...item}).save()]: an [_id] already in the collection
    is a duplicate key. *)
Definition OrderItem_save (it : Item) (w : world)
  : completion (nat * OrderItem) * world :=
  let id := new_id it w in
  match orderItemColl w !! id with
  | Some _ => (Throw (ExternalError "MongoError" "E11000 duplicate key error"), w)
  | None =>
      let doc := mkOrderItem (mi_id (menuItem it)) (item_price it)
                             (modifications it) in
      (Return (id, doc), with_orderItems (<[id := doc]> (orderItemColl w)) w)
  end.

(** [OrderItem.findById(itemId)] *)
Definition OrderItem_findById (itemId : nat) (w : world)
  : completion (option OrderItem) * world :=
  (Return (orderItemColl w !! itemId), w).

(** [orderItem.remove()], for the document found under [itemId] *)
Definition OrderItem_remove (itemId : nat) (w : world) : completion unit * world :=
  (Return tt, with_orderItems (delete itemId (orderItemColl w)) w).

(** ** Collaborators whose answers come from outside the model *)

Record Vendor : Type := mkVendor {
  v_id : nat;
  businessName : string;
  v_address : jsref;
}.

Record Customer : Type := mkCustomer {
  firstName : string;
  lastName : option string;
}.

(** The order after [populate("vendor customer address")]. *)
Record Populated : Type := mkPopulated {
  p_vendor : option Vendor;
  p_customer : option Customer;
  p_address : list string;
}.

(** What [getAddressString] is given: [vendor.address], which is not
    populated, or the populated [order.address]. *)
Inductive address_arg : Type :=
| AddressRef (r : jsref)
| AddressDocs (l : list string).

Record Mail : Type := mkMail {
  to : string;
  subject : string;
  text : string;
  html : string;
}.

Record collaborators : Type := mkCollaborators {
  (** [bcrypt.compare(data, encrypted)] *)
  bcrypt_compare : string → string → bool;
  (** [Communications.sendMail] *)
  sendMail : Mail → string;
  (** the documents [populate("orders")] loads, a missing one being [None] *)
  populate_orders : list jsref → list (option Order);
  (** what [populate("vendor customer address")] loads for an order *)
  populate_order : Order → Populated;
  (** [getAddressString] of [services/location] *)
  getAddressString : address_arg → completion string;
  (** [JSON.stringify(error, Object.getOwnPropertyNames(error))] *)
  stringify : exn → string;
}.

(** ** driver.js *)

Record EmailArgs : Type := mkEmailArgs {
  e_setting : option string;
  e_subject : string;
  e_text : string;
  e_html : string;
}.

Record MessageArgs : Type := mkMessageArgs {
  a_setting : option string;
  a_title : string;
  a_body : string;
  a_data : option (list (string * string));
  a_senderId : nat;
  a_senderModel : string;
}.

(** [`${setting}`] and the property key [setting] stands for. *)
Definition template (setting : option string) : string :=
  match setting with
  | Some s => s
  | None => "undefined"
  end.

(** The properties every plain object inherits from [Object.prototype];
    each of them is a function or an object, hence truthy. *)
Definition inherited (key : string) : bool :=
  bool_decide (key ∈ ["constructor"; "hasOwnProperty"; "isPrototypeOf";
                      "propertyIsEnumerable"; "toLocaleString"; "toString";
                      "valueOf"; "__proto__"; "__defineGetter__";
                      "__defineSetter__"; "__lookupGetter__"; "__lookupSetter__"]).

(** [settings[key]] read as a condition. *)
Definition enabled (settings : gmap string bool) (key : string) : bool :=
  default (inherited key) (settings !! key).

(** [array.length] read as a condition. *)
Definition nonempty {A} (l : list A) : bool := negb (length l =? 0)%nat.

(** [setting && ...]: the setting is given and is not the empty string. *)
Definition given (setting : option string) : bool :=
  match setting with
  | Some s => negb (String.eqb s "")
  | None => false
  end.

(** [data.messageType] *)
Fixpoint field (key : string) (obj : list (string * string)) : option string :=
  match obj with
  | [] => None
  | (k, v) :: obj' => if String.eqb k key then Some v else field key obj'
  end.

(** [x.prop] where [x] may be [undefined] or [null]. *)
Definition required {S A} (x : option A) (prop : string) : M S A :=
  match x with
  | Some a => mret a
  | None => throw (TypeError ("Cannot read property '" +:+ prop +:+ "' of undefined"))
  end.

(** A synchronous call that may throw. *)
Definition call {S A} (r : completion A) : M S A := λ s, (r, s).

(** [lastName[0]] in a template literal. *)
Definition initial (s : string) : string :=
  match s with
  | EmptyString => "undefined"
  | String c _ => String c EmptyString
  end.

(** [array.pull(x)] of a mongoose array: every member equal to [x] goes. *)
Definition pull {A} `{EqDecision A} (x : A) (l : list A) : list A :=
  filter (λ y, y ≠ x) l.

(** [array.push(x)] *)
Definition push {A} (x : A) (l : list A) : list A := l ++ [x].

Definition set_status (s : string) (d : Driver) : Driver :=
  mkDriver (d_id d) (email d) (password d) s (deviceTokens d)
           (emailSettings d) (notificationSettings d) (orders d).

Definition set_deviceTokens (ts : list string) (d : Driver) : Driver :=
  mkDriver (d_id d) (email d) (password d) (d_status d) ts
           (emailSettings d) (notificationSettings d) (orders d).

(** [{error: {message}}] *)
Definition refusal (msg : string) : ErrorInfo :=
  mkErrorInfo (Some msg) None None None.

Section driver_js.
Variable C : collaborators.

Definition validatePassword (candidate : string) : M (mem Driver) bool :=
  d ← this;
  await (λ w, (Return (bcrypt_compare C (password d) candidate), w)).

Definition sendEmail (a : EmailArgs) : M (mem Driver) (reply string) :=
  try_catch
    (d ← this;
     if enabled (emailSettings d) (template (e_setting a))
        || bool_decide (e_setting a = Some "ACCOUNT")
     then
       r ← await (λ w, (Return (sendMail C (mkMail (email d) (e_subject a)
                                                    (e_text a) (e_html a))), w));
       mret (Success r)
     else
       mret (Failure (mkErrorInfo
         (Some ("Driver has turned off email setting: " +:+ template (e_setting a)))
         None None (Some 200))))
    (λ error,
       mret (Failure (mkErrorInfo None (Some (stringify C error))
                                  (Some "sendEmail") (Some 200)))).

Definition sendMessage (a : MessageArgs) : M (mem Driver) (reply Message) :=
  try_catch
    (d ← this;
     if given (a_setting a) && enabled (notificationSettings d) (template (a_setting a))
     then
       payload ← required (a_data a) "messageType";
       let message := mkMessage (field "messageType" payload) (d_id d) "Driver"
                                (a_senderId a) (a_senderModel a)
                                (a_title a) (a_body a) payload (deviceTokens d) in
       saved ← await (Message_save message);
       mret (Success saved)
     else
       mret (Failure (mkErrorInfo
         (Some ("Driver has turned off notification setting: "
                +:+ template (a_setting a)))
         None None (Some 200))))
    (λ error,
       mret (Failure (mkErrorInfo None (Some (stringify C error))
                                  (Some "sendMessage") (Some 200)))).

Definition toggleStatus (newStatus : string) : M (mem Driver) (reply string) :=
  d ← this;
  if nonempty (orders d) && String.eqb newStatus "INACTIVE"
  then
    mret (Failure (mkErrorInfo (Some "There are still active orders on your route!")
                               None (Some "toggleStatus") (Some 418)))
  else
    update (set_status newStatus);;
    d ← this;
    await (Driver_save d);;
    d ← this;
    mret (Success (d_status d)).

Definition addDeviceToken (deviceToken : string) : M (mem Driver) (reply Driver) :=
  update (λ d, set_deviceTokens (pull deviceToken (deviceTokens d)) d);;
  update (λ d, set_deviceTokens (push deviceToken (deviceTokens d)) d);;
  d ← this;
  await (Driver_save d);;
  d ← this;
  mret (Success d).

Definition requestDriver (order : Order) : M (mem Driver) (reply Message) :=
  try_catch
    (if truthy (o_driver order)
     then mret (Failure (refusal "Order already has a driver assigned."))
     else
       d ← this;
       otherVendor ←
         (if nonempty (orders d)
          then
            populated ← await (λ w, (Return (populate_orders C (orders d)), w));
            first ← required (mjoin (head populated)) "vendor";
            mret (strict_neq (o_vendor first) (o_vendor order))
          else mret false);
       if (otherVendor : bool)
       then mret (Failure (refusal "Driver is currently delivering for another vendor."))
       else if String.eqb (d_status d) "INACTIVE"
       then mret (Failure (refusal "Driver is offline."))
       else
         p ← await (λ w, (Return (populate_order C order), w));
         vendor ← required (p_vendor p) "businessName";
         let title := "Incoming Order!" in
         let body := "New order from " +:+ businessName vendor +:+ "." in
         customer ← required (p_customer p) "firstName";
         last ← required (lastName customer) "0";
         businessAddress ← call (getAddressString C (AddressRef (v_address vendor)));
         customerAddress ← call (getAddressString C (AddressDocs (p_address p)));
         tipValue ← required (tip order) "toString";
         let payload :=
           [("orderId", pretty (o_id order));
            ("messageType", "REQUEST_DRIVER");
            ("openModal", "true");
            ("businessName", businessName vendor);
            ("customerName", firstName customer +:+ " " +:+ initial last);
            ("businessAddress", businessAddress);
            ("customerAddress", customerAddress);
            ("tip", pretty tipValue)] in
         sendMessage (mkMessageArgs (Some "REQUEST_DRIVER") title body
                                    (Some payload) (v_id vendor) "Vendor"))
    (λ error,
       mret (Failure (mkErrorInfo None (Some (stringify C error))
                                  (Some "requestDriver") None))).

(** There is no [return] in the [try] block: the dispatcher's answer is
    awaited and dropped, and the method yields [undefined]. *)
Definition notifyOrderReady (vendor : option Vendor) (order : option Order)
  : M (mem Driver) (reply unit) :=
  try_catch
    (v ← required vendor "businessName";
     o ← required order "_id";
     sendMessage (mkMessageArgs (Some "REQUEST_DRIVER") "Order up!"
                    ("The order at " +:+ businessName v +:+ " is ready.")
                    (Some [("orderId", pretty (o_id o));
                           ("messageType", "ORDER_READY");
                           ("openModal", "false")])
                    (v_id v) "Vendor");;
     mret (Success tt))
    (λ error,
       mret (Failure (mkErrorInfo None (Some (stringify C error))
                                  (Some "notifyOrderReady") None))).

Definition notifyOrderCanceled (vendor : option Vendor) (order : option Order)
  : M (mem Driver) (reply unit) :=
  try_catch
    (v ← required vendor "businessName";
     o ← required order "_id";
     sendMessage (mkMessageArgs (Some "REQUEST_DRIVER") "Order canceled."
                    ("The order for " +:+ businessName v +:+ " has been canceled.")
                    (Some [("orderId", pretty (o_id o));
                           ("messageType", "ORDER_CANCELED");
                           ("openModal", "false")])
                    (v_id v) "Vendor");;
     mret (Success tt))
    (λ error,
       mret (Failure (mkErrorInfo None (Some (stringify C error))
                                  (Some "notifyOrderCanceled") None))).

End driver_js.

(** ** order.js *)

Definition set_item_price (p : Z) (it : Item) : Item :=
  mkItem (item_id it) (menuItem it) p (modifications it).

Definition set_orderItems (l : list nat) (o : Order) : Order :=
  mkOrder (o_id o) (o_vendor o) (o_driver o) l (total o) (tip o) (disposition o).

Definition set_total (t : Z) (o : Order) : Order :=
  mkOrder (o_id o) (o_vendor o) (o_driver o) (orderItems o) t (tip o) (disposition o).

Definition set_disposition (s : string) (o : Order) : Order :=
  mkOrder (o_id o) (o_vendor o) (o_driver o) (orderItems o) (total o) (tip o) s.

(** [item.price += n] on the [item] half of the state. *)
Definition add_to_price (n : Z) : M (mem (Order * Item)) unit :=
  update (λ s, (s.1, set_item_price (item_price s.2 + n) s.2)).

(** [addOrderItem]: [this] is the order, [item] the caller's object. *)
Definition addOrderItem : M (mem (Order * Item)) (reply Order) :=
  update (λ s, (s.1, set_item_price (mi_price (menuItem s.2)) s.2));;
  s ← this;
  entries ← match modifications s.2 with
            | ModsArray l => mret l
            | ModsObject _ =>
                throw (TypeError "item.modifications.forEach is not a function")
            | ModsUndefined =>
                throw (TypeError "Cannot read property 'forEach' of undefined")
            end;
  forEach entries (λ modification,
    match options modification with
    | OptArray l => forEach l (λ option, add_to_price (price option))
    | OptObject o => add_to_price (price o)
    | OptUndefined => throw (TypeError "Cannot read property 'price' of undefined")
    end);;
  s ← this;
  newOrderItem ← await (OrderItem_save s.2);
  update (λ s, (set_orderItems (push newOrderItem.1 (orderItems s.1)) s.1, s.2));;
  update (λ s, (set_total (total s.1 + item_price s.2) s.1, s.2));;
  s ← this;
  await (Order_save s.1);;
  mret (Success s.1).

Definition removeOrderItem (itemId : nat) : M (mem Order) (reply Order) :=
  orderItem ← await (OrderItem_findById itemId);
  update (λ o, set_orderItems (pull itemId (orderItems o)) o);;
  found ← required orderItem "price";
  update (λ o, set_total (total o - oi_price found) o);;
  await (OrderItem_remove itemId);;
  o ← this;
  await (Order_save o);;
  mret (Success o).

Definition changeDisposition (newDisposition : string) : M (mem Order) (reply Order) :=
  try_catch
    (update (set_disposition newDisposition);;
     o ← this;
     await (Order_save o);;
     mret (Success o))
    (λ error, mret (Caught error "changeDisposition")).

(** ** Vocabulary of the properties *)




(** [Σ f x] over a list. *)
Fixpoint sumZ {A} (f : A → Z) (l : list A) : Z :=
  match l with
  | [] => 0
  | x :: l' => f x + sumZ f l'
  end.










(** Surcharge of one modification entry: the prices of its options. *)
Definition surcharge (entry : Modification) : Z :=
  match options entry with
  | OptArray l => sumZ price l
  | OptObject o => price o
  | OptUndefined => 0
  end.



(** What the specification asks of [validatePassword]'s collaborator:
    [verifyPassword(plainText, hash)]. *)
Definition verifyPassword (C : collaborators) (plainText hash : string) : bool :=
  bcrypt_compare C plainText hash.



(** ** Sample data *)

Definition quiet : world := mkWorld [] [] ∅ [] [].

Definition outage : exn := ExternalError "MongoError" "connection lost".

(** A world whose next collaborator call throws. *)
Definition failing : world := mkWorld [Some outage] [] ∅ [] [].

Definition default_settings : gmap string bool :=
  {[ "REQUEST_DRIVER" := true; "CHAT" := true ]}.

Definition idle_driver : Driver :=
  mkDriver 1 "driver@example.org" "$2b$10$hash" "ACTIVE" ["ios-1"; "web-2"; "ios-1"]
           ∅ default_settings [].

Definition busy_driver : Driver :=
  mkDriver 1 "driver@example.org" "$2b$10$hash" "ACTIVE" ["ios-1"]
           ∅ default_settings [JObjectId 1 100; JObjectId 2 101].

Definition pizzeria : Vendor := mkVendor 50 "Pizzeria" (JObjectId 3 60).

Definition new_order : Order := mkOrder 7 (JObjectId 4 50) JUndefined [] 0 (Some 5) "NEW".


(** Collaborators of a deployment in which the driver's first assigned
    order names no vendor and the second one is vendor 51's. *)
Definition sample_collaborators : collaborators :=
  mkCollaborators
    (λ plain hash, String.eqb hash ("$2b$10$" +:+ plain))
    (λ _, "250 OK")
    (λ refs, match refs with
             | [] => []
             | _ => [Some (mkOrder 100 JUndefined JUndefined [] 0 None "PAID");
                     Some (mkOrder 101 (JObjectId 5 51) JUndefined [] 0 None "PAID")]
             end)
    (λ o, mkPopulated (match ref_value (o_vendor o) with
                       | Some _ => Some pizzeria
                       | None => None
                       end)
                      (Some (mkCustomer "Ada" (Some "Lovelace"))) ["1 Main St"])
    (λ _, Return "1 Main St")
    (λ _, "{}").

(** The scenario of the specification: base price 10, one modification
    entry with options priced 2 and 1. *)
Definition scenario_item : Item :=
  mkItem (Some 3%nat) (mkMenuItem 1 10) 0
         (ModsArray [mkModification (OptArray [mkModOption 2; mkModOption 1])]).


(** A collection holding one item, of price 5, that [new_order] does not list. *)
Definition foreign_item_world : world :=
  mkWorld [] [] {[ 9%nat := mkOrderItem 1 5 (ModsArray []) ]} [] [].

(** A driver who is offline and has no route. *)
Definition offline_driver : Driver :=
  mkDriver 2 "night@example.org" "$2b$10$hash" "INACTIVE" ["ios-7"]
           ∅ default_settings [].

(** A driver who turned the [REQUEST_DRIVER] notifications off. *)
Definition muted_driver : Driver :=
  mkDriver 3 "quiet@example.org" "$2b$10$hash" "ACTIVE" ["ios-9"]
           ∅ {[ "REQUEST_DRIVER" := false; "CHAT" := true ]} [].

(** An order a driver has taken already. *)
Definition taken_order : Order :=
  mkOrder 9 (JObjectId 4 50) (JObjectId 6 1) [] 0 (Some 5) "PAID".

(** An item one of whose modification entries carries no [options]. *)
Definition broken_item : Item :=
  mkItem (Some 4%nat) (mkMenuItem 1 10) 0
         (ModsArray [mkModification (OptObject (mkModOption 2));
                     mkModification OptUndefined;
                     mkModification (OptObject (mkModOption 1))]).

(** A world in which the first collaborator call works and the second
    one throws. *)
Definition failing_second : world := mkWorld [None; Some outage] [] ∅ [] [].

(** An order that lists item 9 of [foreign_item_world]. *)
Definition order_with_item : Order :=
  mkOrder 7 (JObjectId 4 50) JUndefined [9%nat] 5 (Some 5) "NEW".

(** * Properties *)

Ltac unfold_monad :=
  unfold mbind, M_bind, mret, M_ret, this, update, await, throw, try_catch,
    call, required in *.

Lemma nonempty_true {A} (l : list A) : l ≠ [] → nonempty l = true.
Proof. destruct l; [congruence | reflexivity]. Qed.

(** ** Driver status *)

(** C7.  A driver with assigned orders who asks for [INACTIVE] gets the
    418 refusal, and neither the driver (its [status] included) nor the
    world changes. *)
Theorem toggleStatus_blocked_by_active_orders (m : mem Driver) :
  orders (self m) ≠ [] →
  toggleStatus "INACTIVE" m
  = (Return (Failure (mkErrorInfo (Some "There are still active orders on your route!")
                                  None (Some "toggleStatus") (Some 418))),
     m).
Proof.
  intros Hbusy. unfold toggleStatus. unfold_monad.
  rewrite nonempty_true by exact Hbusy. reflexivity.
Qed.

Lemma toggleStatus_blocked_by_active_orders_witness :
  orders busy_driver ≠ []
  ∧ d_status (self (toggleStatus "INACTIVE" (mkMem quiet busy_driver)).2) = "ACTIVE".
Proof.
  split; [discriminate |].
  rewrite (toggleStatus_blocked_by_active_orders (mkMem quiet busy_driver));
    [reflexivity | discriminate].
Defined.

(** ** Notification gate *)

(** C8.  Without a setting (absent, or the empty string) [sendMessage]
    answers with the refusal of status 200 and leaves the state as it was:
    no [Message] is saved and no collaborator is called. *)
Theorem sendMessage_without_setting_refuses (C : collaborators) (a : MessageArgs)
        (m : mem Driver) :
  given (a_setting a) = false →
  sendMessage C a m
  = (Return (Failure (mkErrorInfo
       (Some ("Driver has turned off notification setting: " +:+ template (a_setting a)))
       None None (Some 200))),
     m).
Proof.
  intros Hunset. unfold sendMessage. unfold_monad.
  rewrite Hunset. reflexivity.
Qed.

Lemma sendMessage_without_setting_refuses_witness :
  given None = false
  ∧ messageColl (ext (sendMessage sample_collaborators
                        (mkMessageArgs None "Hi" "there" (Some []) 50 "Vendor")
                        (mkMem quiet idle_driver)).2) = [].
Proof.
  split; [reflexivity |].
  rewrite (sendMessage_without_setting_refuses sample_collaborators
             (mkMessageArgs None "Hi" "there" (Some []) 50 "Vendor")
             (mkMem quiet idle_driver)); reflexivity.
Defined.

(** ** Device tokens *)

Lemma pull_absent {A} `{EqDecision A} (x : A) (l : list A) : x ∉ pull x l.
Proof.
  unfold pull. intros Hin. apply list_elem_of_filter in Hin. tauto.
Qed.

Lemma pull_id {A} `{EqDecision A} (x : A) (l : list A) : x ∉ l → pull x l = l.
Proof.
  intros Hnot. unfold pull. induction l as [| y l IH]; [reflexivity |].
  rewrite filter_cons. destruct (decide (y ≠ x)) as [_ | Heq].
  - f_equal. apply IH. set_solver.
  - exfalso. apply Hnot. apply dec_stable in Heq. subst. left.
Qed.

Lemma pull_push {A} `{EqDecision A} (x : A) (l : list A) :
  pull x (push x l) = pull x l.
Proof.
  unfold pull, push. rewrite filter_app. simpl.
  rewrite filter_cons, filter_nil.
  destruct (decide (x ≠ x)); [congruence | apply app_nil_r].
Qed.

Lemma count_occ_absent (t : string) (l : list string) :
  t ∉ l → count_occ String.string_dec l t = 0%nat.
Proof.
  intros Hnot. apply count_occ_not_In. rewrite <- list_elem_of_In. exact Hnot.
Qed.

Lemma addDeviceToken_tokens (t : string) (m : mem Driver) :
  deviceTokens (self (addDeviceToken t m).2) = push t (pull t (deviceTokens (self m))).
Proof.
  unfold addDeviceToken. unfold_monad. simpl.
  destruct (next_fault (ext m)); simpl;
    try destruct (Driver_save _ _) as [[] ?]; reflexivity.
Qed.

(** C9.  After [addDeviceToken(t)] the token list is the old one without
    [t], followed by [t]: [t] occurs once, in last position.  A second call
    with the same [t] leaves the list as the first call made it. *)
Theorem addDeviceToken_once_and_last (t : string) (m : mem Driver) :
  let once := (addDeviceToken t m).2 in
  let twice := (addDeviceToken t once).2 in
  deviceTokens (self once) = (pull t (deviceTokens (self m)) ++ [t])%list
  ∧ count_occ String.string_dec (deviceTokens (self once)) t = 1%nat
  ∧ last (deviceTokens (self once)) = Some t
  ∧ deviceTokens (self twice) = deviceTokens (self once)
  ∧ count_occ String.string_dec (deviceTokens (self twice)) t = 1%nat
  ∧ last (deviceTokens (self twice)) = Some t.
Proof.
  intros once twice.
  assert (Honce : deviceTokens (self once) = (pull t (deviceTokens (self m)) ++ [t])%list)
    by apply addDeviceToken_tokens.
  assert (Hcount : count_occ String.string_dec (deviceTokens (self once)) t = 1%nat).
  { rewrite Honce, count_occ_app, count_occ_absent by apply pull_absent.
    simpl. destruct (String.string_dec t t); [reflexivity | congruence]. }
  assert (Hlast : last (deviceTokens (self once)) = Some t)
    by (rewrite Honce; apply last_snoc).
  assert (Htwice : deviceTokens (self twice) = deviceTokens (self once)).
  { unfold twice. rewrite addDeviceToken_tokens. fold once. rewrite Honce.
    fold (push t (pull t (deviceTokens (self m)))).
    rewrite pull_push, pull_id by apply pull_absent. reflexivity. }
  rewrite Htwice. repeat split; assumption.
Qed.

(** ** Password check *)

(** C10.  [validatePassword(p)] gives the verifier the stored [password]
    field where the plain text goes and [p] where the hash goes, and its
    outcome is the verifier's for that pair: its boolean, or the exception
    it throws. *)
Theorem validatePassword_swaps_arguments (C : collaborators) (p : string)
        (m : mem Driver) :
  (validatePassword C p m).1
  = match next_fault (ext m) with
    | Some e => Throw e
    | None => Return (verifyPassword C (password (self m)) p)
    end.
Proof.
  unfold validatePassword, verifyPassword. unfold_monad. simpl.
  destruct (next_fault (ext m)); reflexivity.
Qed.

(** With a verifier that accepts exactly the hash of the plain text, the
    right password is turned down. *)
Example validatePassword_rejects_right_password :
  verifyPassword sample_collaborators "hash" (password idle_driver) = true
  ∧ (validatePassword sample_collaborators "hash" (mkMem quiet idle_driver)).1
    = Return false.
Proof. split; reflexivity. Qed.

(** ** Vendor affinity *)





(** ** Pricing of an item *)

Lemma add_to_price_run (n : Z) (w : world) (o : Order) (it : Item) :
  add_to_price n (mkMem w (o, it))
  = (Return tt, mkMem w (o, set_item_price (item_price it + n) it)).
Proof. reflexivity. Qed.

Lemma forEach_options (l : list ModOption) (w : world) (o : Order) (it : Item) :
  forEach l (λ option, add_to_price (price option)) (mkMem w (o, it))
  = (Return tt, mkMem w (o, set_item_price (item_price it + sumZ price l) it)).
Proof.
  revert it. induction l as [| x l IH]; intros it; simpl.
  - unfold mret, M_ret. rewrite Z.add_0_r. destruct it; reflexivity.
  - unfold mbind, M_bind. rewrite add_to_price_run, IH.
    unfold set_item_price. simpl. rewrite Z.add_assoc. reflexivity.
Qed.

(** The loop over the modification entries touches [item.price] only;
    when every entry has options it runs to its end and adds every
    surcharge. *)
Lemma forEach_modifications (entries : list Modification) (w : world) (o : Order)
      (it : Item) :
  ∃ r p,
    forEach entries
      (λ modification,
         match options modification with
         | OptArray l => forEach l (λ option, add_to_price (price option))
         | OptObject o => add_to_price (price o)
         | OptUndefined => throw (TypeError "Cannot read property 'price' of undefined")
         end) (mkMem w (o, it))
    = (r, mkMem w (o, set_item_price p it))
    ∧ (Forall (λ entry, options entry ≠ OptUndefined) entries →
       r = Return tt ∧ p = item_price it + sumZ surcharge entries).
Proof.
  revert it. induction entries as [| entry entries IH]; intros it; simpl.
  - exists (Return tt), (item_price it). split.
    + unfold mret, M_ret. destruct it; reflexivity.
    + intros _. split; [reflexivity | lia].
  - unfold mbind, M_bind. unfold surcharge at 1.
    destruct (options entry) as [l | opt |] eqn:Hoptions.
    + rewrite forEach_options.
      destruct (IH (set_item_price (item_price it + sumZ price l) it))
        as (r & p & Hrun & Hall).
      exists r, p. split; [rewrite Hrun; destruct it; reflexivity |].
      intros Hsel. apply Forall_cons in Hsel as [_ Hsel].
      destruct (Hall Hsel) as [-> ->]. simpl. split; [reflexivity | lia].
    + rewrite add_to_price_run.
      destruct (IH (set_item_price (item_price it + price opt) it))
        as (r & p & Hrun & Hall).
      exists r, p. split; [rewrite Hrun; destruct it; reflexivity |].
      intros Hsel. apply Forall_cons in Hsel as [_ Hsel].
      destruct (Hall Hsel) as [-> ->]. simpl. split; [reflexivity | lia].
    + exists (Throw (TypeError "Cannot read property 'price' of undefined")),
             (item_price it).
      split; [unfold throw; destruct it; reflexivity |].
      intros Hsel. apply Forall_cons in Hsel as [Hsel _]. congruence.
Qed.





(** ** Ledger invariant *)











(** ** Dispositions *)

(** The schema of [Order] has no enumeration validator on [disposition],
    that of [Driver] has one on [status]. *)
Lemma disposition_path_accepts_all (s : string) : enum_accepts disposition_path s = true.
Proof. reflexivity. Qed.

Lemma status_path_rejects_unknown : enum_accepts status_path "BUSY" = false.
Proof. reflexivity. Qed.

Lemma toggleStatus_unknown_status_throws :
  (toggleStatus "BUSY" (mkMem quiet idle_driver)).1
  = Throw (ValidationError "status is not a valid enum value").
Proof. reflexivity. Qed.

Lemma changeDisposition_sets (s : string) (m : mem Order) :
  disposition (self (changeDisposition s m).2) = s.
Proof.
  unfold changeDisposition, Order_save. unfold_monad. simpl.
  repeat (case_match; simplify_eq/=); reflexivity.
Qed.

(** C5.  [changeDisposition(order, "REFUNDED")] returns the order with
    [disposition = "REFUNDED"], which is none of the five listed values,
    and saves it: the schema lists the values under [enums], a key mongoose
    does not read, so [save] validates nothing. *)
Theorem changeDisposition_leaves_enumeration :
  let r := changeDisposition "REFUNDED" (mkMem quiet new_order) in
  r.1 = Return (Success (set_disposition "REFUNDED" new_order))
  ∧ disposition (self r.2) = "REFUNDED"
  ∧ savedOrders (ext r.2) = [set_disposition "REFUNDED" new_order]
  ∧ "REFUNDED" ∉ dispositions.
Proof.
  repeat split; try reflexivity.
  unfold dispositions. intros Hin. repeat (apply elem_of_cons in Hin as [Heq | Hin];
    [discriminate Heq |]). inversion Hin.
Qed.

(** ** Error containment *)

Ltac by_cases := repeat (case_match; simplify_eq/=); eauto.







(** The four methods without [try] let a failing collaborator through. *)
Lemma toggleStatus_propagates (s : string) (m : mem Driver) (e : exn) :
  orders (self m) = [] → next_fault (ext m) = Some e →
  (toggleStatus s m).1 = Throw e.
Proof.
  intros Hidle Hfault. unfold toggleStatus. unfold_monad. simpl.
  rewrite Hidle. simpl. rewrite Hfault. reflexivity.
Qed.

Lemma addDeviceToken_propagates (t : string) (m : mem Driver) (e : exn) :
  next_fault (ext m) = Some e → (addDeviceToken t m).1 = Throw e.
Proof.
  intros Hfault. unfold addDeviceToken. unfold_monad. simpl.
  rewrite Hfault. reflexivity.
Qed.

Lemma removeOrderItem_propagates (itemId : nat) (m : mem Order) (e : exn) :
  next_fault (ext m) = Some e → (removeOrderItem itemId m).1 = Throw e.
Proof.
  intros Hfault. destruct m as [w o]. simpl in Hfault.
  unfold removeOrderItem, mbind, M_bind, await. simpl.
  rewrite Hfault. reflexivity.
Qed.

Lemma addOrderItem_propagates_example :
  (addOrderItem (mkMem failing (new_order, scenario_item))).1 = Throw outage.
Proof. reflexivity. Qed.



(** ** Order notifications *)

Lemma sendMessage_returns (C : collaborators) (a : MessageArgs) (m : mem Driver) :
  ∃ r, (sendMessage C a m).1 = Return r.
Proof.
  unfold sendMessage, Message_save. unfold_monad. simpl. by_cases.
Qed.

(** C6.  With vendor and order at hand, [notifyOrderReady] and
    [notifyOrderCanceled] dispatch through [sendMessage] under
    [REQUEST_DRIVER], and then return [undefined]: the saved [Message] or
    the refusal the dispatcher answers with does not reach the caller. *)
Theorem notify_drops_dispatcher_reply (C : collaborators) (vendor : Vendor)
        (order : Order) (m : mem Driver) :
  notifyOrderReady C (Some vendor) (Some order) m
  = (Return (Success tt),
     (sendMessage C (mkMessageArgs (Some "REQUEST_DRIVER") "Order up!"
                       ("The order at " +:+ businessName vendor +:+ " is ready.")
                       (Some [("orderId", pretty (o_id order));
                              ("messageType", "ORDER_READY");
                              ("openModal", "false")])
                       (v_id vendor) "Vendor") m).2)
  ∧ notifyOrderCanceled C (Some vendor) (Some order) m
    = (Return (Success tt),
       (sendMessage C (mkMessageArgs (Some "REQUEST_DRIVER") "Order canceled."
                         ("The order for " +:+ businessName vendor
                          +:+ " has been canceled.")
                         (Some [("orderId", pretty (o_id order));
                                ("messageType", "ORDER_CANCELED");
                                ("openModal", "false")])
                         (v_id vendor) "Vendor") m).2).
Proof.
  split.
  - destruct (sendMessage_returns C
                (mkMessageArgs (Some "REQUEST_DRIVER") "Order up!"
                   ("The order at " +:+ businessName vendor +:+ " is ready.")
                   (Some [("orderId", pretty (o_id order));
                          ("messageType", "ORDER_READY");
                          ("openModal", "false")])
                   (v_id vendor) "Vendor") m) as [r Hr].
    unfold notifyOrderReady, try_catch, mbind, M_bind, required, mret, M_ret.
    destruct (sendMessage _ _ _) as [c s]. simpl in *. subst c. reflexivity.
  - destruct (sendMessage_returns C
                (mkMessageArgs (Some "REQUEST_DRIVER") "Order canceled."
                   ("The order for " +:+ businessName vendor
                    +:+ " has been canceled.")
                   (Some [("orderId", pretty (o_id order));
                          ("messageType", "ORDER_CANCELED");
                          ("openModal", "false")])
                   (v_id vendor) "Vendor") m) as [r Hr].
    unfold notifyOrderCanceled, try_catch, mbind, M_bind, required, mret, M_ret.
    destruct (sendMessage _ _ _) as [c s]. simpl in *. subst c. reflexivity.
Qed.

(** The dispatcher saves a message and answers with it; the caller of
    [notifyOrderReady] gets [undefined]. *)
Example notifyOrderReady_returns_undefined :
  (∃ saved, (sendMessage sample_collaborators
               (mkMessageArgs (Some "REQUEST_DRIVER") "Order up!"
                  "The order at Pizzeria is ready."
                  (Some [("orderId", pretty (o_id new_order));
                         ("messageType", "ORDER_READY");
                         ("openModal", "false")])
                  50 "Vendor") (mkMem quiet idle_driver)).1
            = Return (Success saved))
  ∧ (notifyOrderReady sample_collaborators (Some pizzeria) (Some new_order)
                      (mkMem quiet idle_driver)).1
    = Return (Success tt)
  ∧ length (messageColl (ext (notifyOrderReady sample_collaborators (Some pizzeria)
                                (Some new_order) (mkMem quiet idle_driver)).2))
    = 1%nat.
Proof.
  split; [eexists; vm_compute; reflexivity |]. split; vm_compute; reflexivity.
Qed.

(** * Further properties of driver.js *)

(** ** requestDriver *)

(** X1.  An order that already carries a driver is refused before anything
    else happens: no collaborator is called, no message is saved. *)
Theorem requestDriver_order_already_assigned (C : collaborators) (order : Order)
        (m : mem Driver) :
  truthy (o_driver order) = true →
  requestDriver C order m
  = (Return (Failure (refusal "Order already has a driver assigned.")), m).
Proof.
  intros Htaken. unfold requestDriver. unfold_monad. rewrite Htaken. reflexivity.
Qed.

Lemma requestDriver_order_already_assigned_witness :
  requestDriver sample_collaborators taken_order (mkMem quiet busy_driver)
  = (Return (Failure (refusal "Order already has a driver assigned.")),
     mkMem quiet busy_driver).
Proof.
  apply (requestDriver_order_already_assigned sample_collaborators taken_order
           (mkMem quiet busy_driver)).
  reflexivity.
Defined.

(** X2.  A driver without a route whose status is [INACTIVE] is refused as
    offline for an unassigned order, without any collaborator call. *)
Theorem requestDriver_offline_driver (C : collaborators) (order : Order)
        (m : mem Driver) :
  truthy (o_driver order) = false →
  orders (self m) = [] →
  d_status (self m) = "INACTIVE" →
  requestDriver C order m = (Return (Failure (refusal "Driver is offline.")), m).
Proof.
  intros Hfree Hidle Hoff. unfold requestDriver. unfold_monad.
  rewrite Hfree. simpl. rewrite Hidle. simpl. rewrite Hoff. reflexivity.
Qed.

Lemma requestDriver_offline_driver_witness :
  requestDriver sample_collaborators new_order (mkMem quiet offline_driver)
  = (Return (Failure (refusal "Driver is offline.")), mkMem quiet offline_driver).
Proof.
  apply (requestDriver_offline_driver sample_collaborators new_order
           (mkMem quiet offline_driver)); reflexivity.
Defined.

(** X3.  The offer goes out: for an unassigned order with a tip, a driver
    without a route who is not [INACTIVE] and accepts [REQUEST_DRIVER], and
    collaborators that all answer, [requestDriver] saves exactly one message
    and returns it.  The message is of type [REQUEST_DRIVER], goes to the
    driver from the vendor, opens the modal, carries the order id and the
    tip as strings, and holds the driver's device tokens of that moment. *)
Theorem requestDriver_dispatches_offer (C : collaborators) (order : Order)
        (m : mem Driver) (vendor : Vendor) (customer : Customer)
        (last businessAddress customerAddress : string) (tipValue : Z) :
  truthy (o_driver order) = false →
  orders (self m) = [] →
  d_status (self m) ≠ "INACTIVE" →
  faults (ext m) = [] →
  enabled (notificationSettings (self m)) "REQUEST_DRIVER" = true →
  p_vendor (populate_order C order) = Some vendor →
  p_customer (populate_order C order) = Some customer →
  lastName customer = Some last →
  getAddressString C (AddressRef (v_address vendor)) = Return businessAddress →
  getAddressString C (AddressDocs (p_address (populate_order C order)))
  = Return customerAddress →
  tip order = Some tipValue →
  ∃ msg,
    (requestDriver C order m).1 = Return (Success msg)
    ∧ messageColl (ext (requestDriver C order m).2) = (messageColl (ext m) ++ [msg])%list
    ∧ messageType msg = Some "REQUEST_DRIVER"
    ∧ recipient msg = d_id (self m) ∧ recipientModel msg = "Driver"
    ∧ sender msg = v_id vendor ∧ senderModel msg = "Vendor"
    ∧ field "orderId" (data msg) = Some (pretty (o_id order))
    ∧ field "openModal" (data msg) = Some "true"
    ∧ field "tip" (data msg) = Some (pretty tipValue)
    ∧ m_deviceTokens msg = deviceTokens (self m).
Proof.
  intros Hfree Hidle Hon Hquiet Hgate Hvendor Hcustomer Hlast Hbusiness Hcust Htip.
  destruct m as [[fs ms coll sd so] d]. simpl in *. subst fs.
  apply String.eqb_neq in Hon.
  unfold requestDriver, sendMessage, Message_save. unfold_monad. simpl.
  rewrite Hfree. simpl. rewrite Hidle. simpl. rewrite Hon. unfold next_fault. simpl.
  rewrite Hvendor. simpl. rewrite Hcustomer. simpl. rewrite Hlast. simpl.
  rewrite Hbusiness. simpl. rewrite Hcust. simpl. rewrite Htip. simpl.
  rewrite Hgate. simpl.
  eexists. repeat split.
Qed.

Lemma requestDriver_dispatches_offer_witness :
  ∃ msg,
    (requestDriver sample_collaborators new_order (mkMem quiet idle_driver)).1
    = Return (Success msg)
    ∧ field "tip" (data msg) = Some "5"
    ∧ m_deviceTokens msg = ["ios-1"; "web-2"; "ios-1"].
Proof.
  destruct (requestDriver_dispatches_offer sample_collaborators new_order
              (mkMem quiet idle_driver) pizzeria (mkCustomer "Ada" (Some "Lovelace"))
              "Lovelace" "1 Main St" "1 Main St" 5)
    as (msg & Hret & _ & _ & _ & _ & _ & _ & _ & _ & Htip & Htokens);
    try reflexivity; [discriminate |].
  exists msg. split; [exact Hret |]. split; [exact Htip | exact Htokens].
Defined.

(** X4.  The dispatcher's refusal passes through unchanged: when every check
    of [requestDriver] passes and the collaborators answer, but the driver
    does not accept [REQUEST_DRIVER], the caller gets the dispatcher's own
    refusal with its status 200, and no message is saved. *)
Theorem requestDriver_passes_gate_refusal (C : collaborators) (order : Order)
        (m : mem Driver) (vendor : Vendor) (customer : Customer)
        (last businessAddress customerAddress : string) (tipValue : Z) :
  truthy (o_driver order) = false →
  orders (self m) = [] →
  d_status (self m) ≠ "INACTIVE" →
  faults (ext m) = [] →
  enabled (notificationSettings (self m)) "REQUEST_DRIVER" = false →
  p_vendor (populate_order C order) = Some vendor →
  p_customer (populate_order C order) = Some customer →
  lastName customer = Some last →
  getAddressString C (AddressRef (v_address vendor)) = Return businessAddress →
  getAddressString C (AddressDocs (p_address (populate_order C order)))
  = Return customerAddress →
  tip order = Some tipValue →
  (requestDriver C order m).1
  = Return (Failure (mkErrorInfo
      (Some "Driver has turned off notification setting: REQUEST_DRIVER")
      None None (Some 200)))
  ∧ messageColl (ext (requestDriver C order m).2) = messageColl (ext m).
Proof.
  intros Hfree Hidle Hon Hquiet Hgate Hvendor Hcustomer Hlast Hbusiness Hcust Htip.
  destruct m as [[fs ms coll sd so] d]. simpl in *. subst fs.
  apply String.eqb_neq in Hon.
  unfold requestDriver, sendMessage, Message_save. unfold_monad. simpl.
  rewrite Hfree. simpl. rewrite Hidle. simpl. rewrite Hon. unfold next_fault. simpl.
  rewrite Hvendor. simpl. rewrite Hcustomer. simpl. rewrite Hlast. simpl.
  rewrite Hbusiness. simpl. rewrite Hcust. simpl. rewrite Htip. simpl.
  rewrite Hgate. simpl. split; reflexivity.
Qed.

Lemma requestDriver_passes_gate_refusal_witness :
  (requestDriver sample_collaborators new_order (mkMem quiet muted_driver)).1
  = Return (Failure (mkErrorInfo
      (Some "Driver has turned off notification setting: REQUEST_DRIVER")
      None None (Some 200))).
Proof.
  apply (requestDriver_passes_gate_refusal sample_collaborators new_order
           (mkMem quiet muted_driver) pizzeria (mkCustomer "Ada" (Some "Lovelace"))
           "Lovelace" "1 Main St" "1 Main St" 5);
    try reflexivity; discriminate.
Defined.

(** X5.  Whatever the order, the driver and the collaborators do,
    [requestDriver] writes to the [Message] collection only: no driver and
    no order is saved, no [OrderItem] touched; the collection gains at most
    one message, and when it gains one the call returns that message. *)
Theorem requestDriver_writes_messages_only (C : collaborators) (order : Order)
        (m : mem Driver) :
  let after := ext (requestDriver C order m).2 in
  savedDrivers after = savedDrivers (ext m)
  ∧ savedOrders after = savedOrders (ext m)
  ∧ orderItemColl after = orderItemColl (ext m)
  ∧ (messageColl after = messageColl (ext m)
     ∨ ∃ msg, messageColl after = (messageColl (ext m) ++ [msg])%list
              ∧ (requestDriver C order m).1 = Return (Success msg)).
Proof.
  destruct m as [[fs ms coll sd so] d].
  unfold requestDriver, sendMessage, Message_save. unfold_monad. unfold_monad.
  unfold next_fault, consume. simpl.
  repeat (case_match; simplify_eq/=); repeat split;
    try reflexivity; try (left; reflexivity);
    right; eexists; split; reflexivity.
Qed.

(** ** sendEmail and sendMessage *)

(** X6.  Account mail is always dispatched: with [setting = "ACCOUNT"] the
    driver's email settings are not consulted.  The mail goes to the
    driver's address and the transport's answer is returned; when the
    transport throws, the exception comes back wrapped under
    [functionName: "sendEmail"] with status 200. *)
Theorem sendEmail_account_bypasses_settings (C : collaborators) (subj txt htm : string)
        (m : mem Driver) :
  (sendEmail C (mkEmailArgs (Some "ACCOUNT") subj txt htm) m).1
  = match next_fault (ext m) with
    | None => Return (Success (sendMail C (mkMail (email (self m)) subj txt htm)))
    | Some e => Return (Failure (mkErrorInfo None (Some (stringify C e))
                                             (Some "sendEmail") (Some 200)))
    end.
Proof.
  unfold sendEmail. unfold_monad. simpl.
  rewrite orb_true_r. destruct (next_fault (ext m)); reflexivity.
Qed.

(** X7.  A category that is neither [ACCOUNT] nor switched on is refused
    with status 200, and the mail transport is not called. *)
Theorem sendEmail_refuses_disabled_category (C : collaborators) (a : EmailArgs)
        (m : mem Driver) :
  e_setting a ≠ Some "ACCOUNT" →
  enabled (emailSettings (self m)) (template (e_setting a)) = false →
  sendEmail C a m
  = (Return (Failure (mkErrorInfo
       (Some ("Driver has turned off email setting: " +:+ template (e_setting a)))
       None None (Some 200))),
     m).
Proof.
  intros Hother Hoff. unfold sendEmail. unfold_monad. simpl.
  rewrite Hoff, bool_decide_eq_false_2 by exact Hother. reflexivity.
Qed.

Lemma sendEmail_refuses_disabled_category_witness :
  (sendEmail sample_collaborators (mkEmailArgs (Some "PROMOTIONS") "Sale" "" "")
             (mkMem quiet idle_driver)).1
  = Return (Failure (mkErrorInfo
      (Some "Driver has turned off email setting: PROMOTIONS") None None (Some 200))).
Proof.
  rewrite (sendEmail_refuses_disabled_category sample_collaborators
             (mkEmailArgs (Some "PROMOTIONS") "Sale" "" "")
             (mkMem quiet idle_driver)); [reflexivity | discriminate | reflexivity].
Defined.

(** X8.  A message is saved exactly when [sendMessage] returns it: either
    the [Message] collection is as before and the reply is an error object,
    or it gained one message, which is the reply, is addressed to this
    driver as a [Driver], comes from the given sender, and holds the
    driver's device tokens.  Nothing else is written. *)
Theorem sendMessage_saves_what_it_returns (C : collaborators) (a : MessageArgs)
        (m : mem Driver) :
  let r := sendMessage C a m in
  self r.2 = self m
  ∧ savedDrivers (ext r.2) = savedDrivers (ext m)
  ∧ savedOrders (ext r.2) = savedOrders (ext m)
  ∧ orderItemColl (ext r.2) = orderItemColl (ext m)
  ∧ ((messageColl (ext r.2) = messageColl (ext m) ∧ ∃ e, r.1 = Return (Failure e))
     ∨ ∃ msg, messageColl (ext r.2) = (messageColl (ext m) ++ [msg])%list
              ∧ r.1 = Return (Success msg)
              ∧ recipient msg = d_id (self m) ∧ recipientModel msg = "Driver"
              ∧ sender msg = a_senderId a ∧ senderModel msg = a_senderModel a
              ∧ title msg = a_title a ∧ body msg = a_body a
              ∧ m_deviceTokens msg = deviceTokens (self m)).
Proof.
  destruct m as [[fs ms coll sd so] d].
  unfold sendMessage, Message_save. unfold_monad. unfold_monad.
  unfold next_fault, consume. simpl.
  repeat (case_match; simplify_eq/=); repeat split;
    try reflexivity; try (left; split; [reflexivity | eexists; reflexivity]).
  all: right; eexists; repeat split; reflexivity.
Qed.

(** X9.  When the gate is open and the payload is there, a failing save
    comes back wrapped under [functionName: "sendMessage"] with status 200,
    and no message is saved. *)
Theorem sendMessage_wraps_failed_save (C : collaborators) (a : MessageArgs)
        (m : mem Driver) (payload : list (string * string)) (e : exn) :
  given (a_setting a) = true →
  enabled (notificationSettings (self m)) (template (a_setting a)) = true →
  a_data a = Some payload →
  next_fault (ext m) = Some e →
  (sendMessage C a m).1
  = Return (Failure (mkErrorInfo None (Some (stringify C e))
                                 (Some "sendMessage") (Some 200)))
  ∧ messageColl (ext (sendMessage C a m).2) = messageColl (ext m).
Proof.
  intros Hgiven Hon Hdata Hfault. unfold sendMessage. unfold_monad. simpl.
  rewrite Hgiven, Hon. simpl. rewrite Hdata. simpl. rewrite Hfault.
  split; reflexivity.
Qed.

Lemma sendMessage_wraps_failed_save_witness :
  (sendMessage sample_collaborators
     (mkMessageArgs (Some "CHAT") "Hi" "there" (Some [("messageType", "CHAT")])
                    50 "Vendor")
     (mkMem failing idle_driver)).1
  = Return (Failure (mkErrorInfo None (Some "{}") (Some "sendMessage") (Some 200))).
Proof.
  apply (sendMessage_wraps_failed_save sample_collaborators
           (mkMessageArgs (Some "CHAT") "Hi" "there" (Some [("messageType", "CHAT")])
                          50 "Vendor")
           (mkMem failing idle_driver) [("messageType", "CHAT")] outage);
    reflexivity.
Defined.

(** X10.  A call that passes the gate without a [data] object fails on
    [data.messageType]: the [TypeError] comes back wrapped, no collaborator
    is called and the state is as before. *)
Theorem sendMessage_without_data (C : collaborators) (a : MessageArgs)
        (m : mem Driver) :
  given (a_setting a) = true →
  enabled (notificationSettings (self m)) (template (a_setting a)) = true →
  a_data a = None →
  ∃ reason,
    sendMessage C a m
    = (Return (Failure (mkErrorInfo None (Some (stringify C (TypeError reason)))
                                    (Some "sendMessage") (Some 200))),
       m).
Proof.
  intros Hgiven Hon Hdata. unfold sendMessage. unfold_monad. simpl.
  rewrite Hgiven, Hon. simpl. rewrite Hdata. eexists. reflexivity.
Qed.

Lemma sendMessage_without_data_witness :
  messageColl (ext (sendMessage sample_collaborators
                      (mkMessageArgs (Some "CHAT") "Hi" "there" None 50 "Vendor")
                      (mkMem quiet idle_driver)).2) = [].
Proof.
  destruct (sendMessage_without_data sample_collaborators
              (mkMessageArgs (Some "CHAT") "Hi" "there" None 50 "Vendor")
              (mkMem quiet idle_driver)) as [reason Hrun];
    [reflexivity | reflexivity | reflexivity |].
  rewrite Hrun. reflexivity.
Defined.

(** ** notifyOrderReady and notifyOrderCanceled *)

(** X11.  With vendor and order at hand, [REQUEST_DRIVER] accepted and
    the database up, each notification saves exactly one message for the
    driver from the vendor, of type [ORDER_READY] resp. [ORDER_CANCELED],
    that names the order and does not open the modal. *)
Theorem notifications_save_their_message (C : collaborators) (vendor : Vendor)
        (order : Order) (m : mem Driver) :
  next_fault (ext m) = None →
  enabled (notificationSettings (self m)) "REQUEST_DRIVER" = true →
  (∃ msg,
     messageColl (ext (notifyOrderReady C (Some vendor) (Some order) m).2)
     = (messageColl (ext m) ++ [msg])%list
     ∧ messageType msg = Some "ORDER_READY"
     ∧ title msg = "Order up!"
     ∧ body msg = "The order at " +:+ businessName vendor +:+ " is ready."
     ∧ data msg = [("orderId", pretty (o_id order)); ("messageType", "ORDER_READY");
                   ("openModal", "false")]
     ∧ recipient msg = d_id (self m) ∧ sender msg = v_id vendor
     ∧ senderModel msg = "Vendor")
  ∧ (∃ msg,
       messageColl (ext (notifyOrderCanceled C (Some vendor) (Some order) m).2)
       = (messageColl (ext m) ++ [msg])%list
       ∧ messageType msg = Some "ORDER_CANCELED"
       ∧ title msg = "Order canceled."
       ∧ body msg = "The order for " +:+ businessName vendor +:+ " has been canceled."
       ∧ data msg = [("orderId", pretty (o_id order));
                     ("messageType", "ORDER_CANCELED"); ("openModal", "false")]
       ∧ recipient msg = d_id (self m) ∧ sender msg = v_id vendor
       ∧ senderModel msg = "Vendor").
Proof.
  intros Hup Hon. destruct m as [w d]. simpl in *.
  split.
  - unfold notifyOrderReady, sendMessage, Message_save. unfold_monad. simpl.
    rewrite Hon. simpl. rewrite Hup. simpl. eexists. repeat split.
  - unfold notifyOrderCanceled, sendMessage, Message_save. unfold_monad. simpl.
    rewrite Hon. simpl. rewrite Hup. simpl. eexists. repeat split.
Qed.

Lemma notifications_save_their_message_witness :
  length (messageColl (ext (notifyOrderCanceled sample_collaborators (Some pizzeria)
                              (Some new_order) (mkMem quiet idle_driver)).2))
  = 1%nat.
Proof.
  destruct (notifications_save_their_message sample_collaborators pizzeria new_order
              (mkMem quiet idle_driver)) as [_ (msg & Hsaved & _)];
    [reflexivity | reflexivity |].
  rewrite Hsaved. reflexivity.
Defined.

(** X12.  Without a vendor the notification never reaches the dispatcher:
    the [TypeError] of [vendor.businessName] comes back wrapped under the
    method's own name, and the state is as before. *)
Theorem notifications_without_vendor (C : collaborators) (order : option Order)
        (m : mem Driver) :
  ∃ reason,
    notifyOrderReady C None order m
    = (Return (Failure (mkErrorInfo None (Some (stringify C (TypeError reason)))
                                    (Some "notifyOrderReady") None)), m)
    ∧ notifyOrderCanceled C None order m
      = (Return (Failure (mkErrorInfo None (Some (stringify C (TypeError reason)))
                                      (Some "notifyOrderCanceled") None)), m).
Proof. eexists. split; reflexivity. Qed.

(** ** toggleStatus and addDeviceToken *)

(** X13.  A status change that the route does not block (no assigned
    orders, or a status other than [INACTIVE]) and that the database
    accepts is written to the document, saved, and returned. *)
Theorem toggleStatus_saves_new_status (newStatus : string) (m : mem Driver) :
  orders (self m) = [] ∨ newStatus ≠ "INACTIVE" →
  next_fault (ext m) = None →
  validate_driver (set_status newStatus (self m)) = None →
  (toggleStatus newStatus m).1 = Return (Success newStatus)
  ∧ self (toggleStatus newStatus m).2 = set_status newStatus (self m)
  ∧ savedDrivers (ext (toggleStatus newStatus m).2)
    = (savedDrivers (ext m) ++ [set_status newStatus (self m)])%list.
Proof.
  intros Hfree Hup Hvalid. destruct m as [w d]. simpl in *.
  assert (Hopen : nonempty (orders d) && String.eqb newStatus "INACTIVE" = false).
  { destruct Hfree as [-> | Hne]; [reflexivity |].
    apply String.eqb_neq in Hne. rewrite Hne. apply andb_false_r. }
  unfold toggleStatus, Driver_save. unfold_monad. simpl.
  rewrite Hopen. simpl. rewrite Hup. simpl. rewrite Hvalid. simpl.
  repeat split.
Qed.

Lemma toggleStatus_saves_new_status_witness :
  (toggleStatus "ACTIVE" (mkMem quiet busy_driver)).1 = Return (Success "ACTIVE")
  ∧ (toggleStatus "INACTIVE" (mkMem quiet idle_driver)).1 = Return (Success "INACTIVE").
Proof.
  split.
  - apply (toggleStatus_saves_new_status "ACTIVE" (mkMem quiet busy_driver));
      [right; discriminate | reflexivity | reflexivity].
  - apply (toggleStatus_saves_new_status "INACTIVE" (mkMem quiet idle_driver));
      [left; reflexivity | reflexivity | reflexivity].
Defined.

(** X14.  [toggleStatus] assigns before it saves: when the save throws
    (the database is down, or the status is outside the schema's
    enumeration), the exception reaches the caller, nothing is saved, and
    the in-memory document already carries the new status. *)
Theorem toggleStatus_failed_save_keeps_assignment (newStatus : string) (m : mem Driver)
        (e : exn) :
  orders (self m) = [] ∨ newStatus ≠ "INACTIVE" →
  next_fault (ext m) = Some e
  ∨ (next_fault (ext m) = None ∧ validate_driver (set_status newStatus (self m)) = Some e) →
  (toggleStatus newStatus m).1 = Throw e
  ∧ d_status (self (toggleStatus newStatus m).2) = newStatus
  ∧ savedDrivers (ext (toggleStatus newStatus m).2) = savedDrivers (ext m).
Proof.
  intros Hfree Hfail. destruct m as [w d]. simpl in *.
  assert (Hopen : nonempty (orders d) && String.eqb newStatus "INACTIVE" = false).
  { destruct Hfree as [-> | Hne]; [reflexivity |].
    apply String.eqb_neq in Hne. rewrite Hne. apply andb_false_r. }
  unfold toggleStatus, Driver_save. unfold_monad. simpl.
  rewrite Hopen. simpl.
  destruct Hfail as [Hdown | [Hup Hinvalid]].
  - rewrite Hdown. repeat split.
  - rewrite Hup. simpl. rewrite Hinvalid. repeat split.
Qed.

Lemma toggleStatus_failed_save_keeps_assignment_witness :
  (toggleStatus "BUSY" (mkMem quiet idle_driver)).1
  = Throw (ValidationError "status is not a valid enum value")
  ∧ d_status (self (toggleStatus "BUSY" (mkMem quiet idle_driver)).2) = "BUSY".
Proof.
  destruct (toggleStatus_failed_save_keeps_assignment "BUSY" (mkMem quiet idle_driver)
              (ValidationError "status is not a valid enum value"))
    as (Hthrow & Hstatus & _).
  - left. reflexivity.
  - right. split; reflexivity.
  - split; [exact Hthrow | exact Hstatus].
Defined.

(** X15.  [addDeviceToken] keeps every other token, with its number of
    occurrences and in the order it had; the list never grows by more than
    one entry. *)
Theorem addDeviceToken_keeps_other_tokens (t : string) (m : mem Driver) :
  let after := deviceTokens (self (addDeviceToken t m).2) in
  pull t after = pull t (deviceTokens (self m))
  ∧ (∀ u, u ≠ t →
          count_occ String.string_dec after u
          = count_occ String.string_dec (deviceTokens (self m)) u)
  ∧ (length after ≤ S (length (deviceTokens (self m))))%nat.
Proof.
  intros after. subst after. rewrite addDeviceToken_tokens.
  split; [| split].
  - rewrite pull_push. apply pull_id, pull_absent.
  - intros u Hne. unfold push, pull. rewrite count_occ_app. simpl.
    destruct (String.string_dec t u) as [-> | _]; [congruence |].
    rewrite Nat.add_0_r.
    induction (deviceTokens (self m)) as [| x l IH]; [reflexivity |].
    rewrite filter_cons. destruct (decide (x ≠ t)) as [Hkeep | Hdrop]; simpl.
    + destruct (String.string_dec x u); rewrite IH; reflexivity.
    + apply dec_stable in Hdrop. subst x.
      destruct (String.string_dec t u) as [-> | _]; [congruence | exact IH].
  - unfold push, pull. rewrite length_app. simpl.
    pose proof (length_filter (λ y, y ≠ t) (deviceTokens (self m))). lia.
Qed.

Lemma addDeviceToken_keeps_other_tokens_witness :
  count_occ String.string_dec
            (deviceTokens (self (addDeviceToken "ios-1" (mkMem quiet idle_driver)).2))
            "web-2"
  = 1%nat.
Proof.
  destruct (addDeviceToken_keeps_other_tokens "ios-1" (mkMem quiet idle_driver))
    as (_ & Hcount & _).
  rewrite Hcount; [reflexivity | discriminate].
Defined.

(** X16.  When the save succeeds, [addDeviceToken] returns the document it
    saved, which is the in-memory driver with the new token list. *)
Theorem addDeviceToken_returns_saved_driver (t : string) (m : mem Driver) (d : Driver) :
  (addDeviceToken t m).1 = Return (Success d) →
  d = self (addDeviceToken t m).2
  ∧ deviceTokens d = push t (pull t (deviceTokens (self m)))
  ∧ savedDrivers (ext (addDeviceToken t m).2) = (savedDrivers (ext m) ++ [d])%list.
Proof.
  destruct m as [w old]. unfold addDeviceToken, Driver_save. unfold_monad. simpl.
  destruct (next_fault w); simpl; [discriminate |].
  destruct (validate_driver _); simpl; [discriminate |].
  intros [= <-]. repeat split.
Qed.

Lemma addDeviceToken_returns_saved_driver_witness :
  ∃ d, (addDeviceToken "web-2" (mkMem quiet idle_driver)).1 = Return (Success d)
       ∧ deviceTokens d = ["ios-1"; "ios-1"; "web-2"].
Proof.
  eexists. split; [reflexivity |].
  apply (addDeviceToken_returns_saved_driver "web-2" (mkMem quiet idle_driver)).
  reflexivity.
Defined.

(** * Further properties of order.js *)

(** ** addOrderItem *)

(** X17.  The price the caller puts on the item plays no part: it is
    overwritten by the menu item's price before anything is read. *)
Theorem addOrderItem_ignores_given_price (w : world) (order : Order) (item : Item)
        (given_price : Z) :
  addOrderItem (mkMem w (order, set_item_price given_price item))
  = addOrderItem (mkMem w (order, item)).
Proof. reflexivity. Qed.

Lemma forEach_stops_at_missing_options (before after : list Modification)
      (bad : Modification) (w : world) (o : Order) (it : Item) :
  Forall (λ entry, options entry ≠ OptUndefined) before →
  options bad = OptUndefined →
  forEach (before ++ bad :: after)
    (λ modification,
       match options modification with
       | OptArray l => forEach l (λ option, add_to_price (price option))
       | OptObject o => add_to_price (price o)
       | OptUndefined => throw (TypeError "Cannot read property 'price' of undefined")
       end) (mkMem w (o, it))
  = (Throw (TypeError "Cannot read property 'price' of undefined"),
     mkMem w (o, set_item_price (item_price it + sumZ surcharge before) it)).
Proof.
  intros Hsel Hbad. revert it.
  induction before as [| entry before IH]; intros it; simpl.
  - unfold mbind, M_bind. rewrite Hbad. unfold throw.
    rewrite Z.add_0_r. destruct it; reflexivity.
  - apply Forall_cons in Hsel as [Hentry Hsel].
    unfold mbind, M_bind. unfold surcharge at 1.
    destruct (options entry) as [l | opt |] eqn:Hoptions; [| | congruence].
    + rewrite forEach_options, (IH Hsel). unfold set_item_price. simpl.
      rewrite Z.add_assoc. reflexivity.
    + rewrite add_to_price_run, (IH Hsel). unfold set_item_price. simpl.
      rewrite Z.add_assoc. reflexivity.
Qed.

(** X18.  A modification entry without [options] stops the call with a
    [TypeError]: the entries before it have been charged to [item.price],
    the ones after it have not, and neither the order nor the world has
    changed. *)
Theorem addOrderItem_entry_without_options (w : world) (order : Order) (item : Item)
        (before after : list Modification) (bad : Modification) :
  modifications item = ModsArray (before ++ bad :: after) →
  Forall (λ entry, options entry ≠ OptUndefined) before →
  options bad = OptUndefined →
  ∃ reason,
    addOrderItem (mkMem w (order, item))
    = (Throw (TypeError reason),
       mkMem w (order,
                set_item_price (mi_price (menuItem item) + sumZ surcharge before) item)).
Proof.
  intros Hmods Hsel Hbad. eexists.
  unfold addOrderItem, mbind, M_bind. simpl. rewrite Hmods. simpl.
  rewrite (forEach_stops_at_missing_options before after bad) by assumption.
  reflexivity.
Qed.

Lemma addOrderItem_entry_without_options_witness :
  item_price (self (addOrderItem (mkMem quiet (new_order, broken_item))).2).2 = 12
  ∧ orderItems (self (addOrderItem (mkMem quiet (new_order, broken_item))).2).1 = [].
Proof.
  destruct (addOrderItem_entry_without_options quiet new_order broken_item
              [mkModification (OptObject (mkModOption 2))]
              [mkModification (OptObject (mkModOption 1))]
              (mkModification OptUndefined)) as [reason Hrun].
  - reflexivity.
  - repeat constructor; discriminate.
  - reflexivity.
  - rewrite Hrun. split; reflexivity.
Defined.

(** X19.  [addOrderItem] is not atomic: when the item is saved and the
    save of the order then throws, the caller gets the exception, yet the
    new [OrderItem] is in the collection and the in-memory order lists and
    totals it, while no order has been saved. *)
Theorem addOrderItem_failed_order_save_keeps_item (w : world) (order : Order)
        (item : Item) (entries : list Modification) (e : exn) :
  modifications item = ModsArray entries →
  Forall (λ entry, options entry ≠ OptUndefined) entries →
  next_fault w = None →
  orderItemColl w !! new_id item w = None →
  next_fault (consume w) = Some e →
  let p := mi_price (menuItem item) + sumZ surcharge entries in
  let r := addOrderItem (mkMem w (order, item)) in
  r.1 = Throw e
  ∧ orderItemColl (ext r.2) !! new_id item w
    = Some (mkOrderItem (mi_id (menuItem item)) p (modifications item))
  ∧ orderItems (self r.2).1 = (orderItems order ++ [new_id item w])%list
  ∧ total (self r.2).1 = total order + p
  ∧ savedOrders (ext r.2) = savedOrders w.
Proof.
  intros Hmods Hsel Hfirst Hfresh Hsecond p r. subst r.
  unfold addOrderItem, mbind, M_bind. simpl. rewrite Hmods. simpl.
  destruct (forEach_modifications entries w order
              (set_item_price (mi_price (menuItem item)) item))
    as (c & q & Hrun & Hall).
  destruct (Hall Hsel) as [-> Hq]. simpl in Hq. fold p in Hq. subst q.
  rewrite Hrun. simpl.
  unfold await, OrderItem_save. simpl.
  change (new_id (set_item_price p (set_item_price (mi_price (menuItem item)) item))
                 (consume w))
    with (new_id item w).
  rewrite Hfirst, Hfresh. simpl.
  change (next_fault (with_orderItems
            (<[new_id item w := mkOrderItem (mi_id (menuItem item)) p (modifications item)]>
               (orderItemColl w)) (consume w)))
    with (next_fault (consume w)).
  rewrite Hsecond. simpl. rewrite lookup_insert_eq, Hmods. repeat split.
Qed.

Lemma addOrderItem_failed_order_save_keeps_item_witness :
  (addOrderItem (mkMem failing_second (new_order, scenario_item))).1 = Throw outage
  ∧ is_Some (orderItemColl
               (ext (addOrderItem (mkMem failing_second (new_order, scenario_item))).2)
             !! 3%nat).
Proof.
  destruct (addOrderItem_failed_order_save_keeps_item failing_second new_order
              scenario_item
              [mkModification (OptArray [mkModOption 2; mkModOption 1])] outage)
    as (Hthrow & Hstored & _).
  - reflexivity.
  - repeat constructor; discriminate.
  - reflexivity.
  - reflexivity.
  - reflexivity.
  - split; [exact Hthrow |]. eexists. exact Hstored.
Defined.

(** ** removeOrderItem *)

(** X20.  For an id the collection does not hold, [removeOrderItem] throws
    a [TypeError] on [orderItem.price] after the id has been pulled from
    the in-memory list: [orderItems] has lost every occurrence of the id,
    [total] is untouched, nothing is deleted and nothing is saved. *)
Theorem removeOrderItem_unknown_item (itemId : nat) (m : mem Order) :
  next_fault (ext m) = None →
  orderItemColl (ext m) !! itemId = None →
  let r := removeOrderItem itemId m in
  (∃ reason, r.1 = Throw (TypeError reason))
  ∧ orderItems (self r.2) = pull itemId (orderItems (self m))
  ∧ total (self r.2) = total (self m)
  ∧ orderItemColl (ext r.2) = orderItemColl (ext m)
  ∧ savedOrders (ext r.2) = savedOrders (ext m).
Proof.
  intros Hup Hmissing r. subst r. destruct m as [w o]. simpl in *.
  unfold removeOrderItem, mbind, M_bind, await, required, throw, OrderItem_findById.
  simpl. rewrite Hup. simpl. rewrite Hmissing. simpl.
  split; [eexists; reflexivity |]. repeat split.
Qed.

Lemma removeOrderItem_unknown_item_witness :
  orderItems (self (removeOrderItem 9 (mkMem quiet order_with_item)).2) = []
  ∧ total (self (removeOrderItem 9 (mkMem quiet order_with_item)).2) = 5.
Proof.
  destruct (removeOrderItem_unknown_item 9 (mkMem quiet order_with_item))
    as (_ & Hitems & Htotal & _); [reflexivity | reflexivity |].
  split; [rewrite Hitems; reflexivity | rewrite Htotal; reflexivity].
Defined.

(** X21.  When [removeOrderItem] returns an order, the item was in the
    collection and is deleted from it, the order returned is the in-memory
    one, without the id and with the item's price taken off [total], and it
    is the order that was saved. *)
Theorem removeOrderItem_returns_saved_order (itemId : nat) (m : mem Order)
        (returned : Order) :
  (removeOrderItem itemId m).1 = Return (Success returned) →
  ∃ found,
    orderItemColl (ext m) !! itemId = Some found
    ∧ returned = self (removeOrderItem itemId m).2
    ∧ orderItems returned = pull itemId (orderItems (self m))
    ∧ total returned = total (self m) - oi_price found
    ∧ orderItemColl (ext (removeOrderItem itemId m).2) !! itemId = None
    ∧ savedOrders (ext (removeOrderItem itemId m).2)
      = (savedOrders (ext m) ++ [returned])%list.
Proof.
  intros Hret. destruct m as [w o].
  unfold removeOrderItem, mbind, M_bind, await, required, throw, mret, M_ret in *.
  unfold OrderItem_findById, OrderItem_remove, Order_save in *. simpl in *.
  destruct (next_fault w); simpl in *; [discriminate Hret |].
  destruct (orderItemColl w !! itemId) as [found |] eqn:Hfound; simpl in *;
    [| discriminate Hret].
  destruct (next_fault _); simpl in *; [discriminate Hret |].
  destruct (next_fault _); simpl in *; [discriminate Hret |].
  destruct (validate_order _); simpl in *; [discriminate Hret |].
  injection Hret as <-. exists found. rewrite lookup_delete_eq. repeat split.
Qed.

Lemma removeOrderItem_returns_saved_order_witness :
  ∃ found, orderItemColl foreign_item_world !! 9%nat = Some found
           ∧ oi_price found = 5.
Proof.
  destruct (removeOrderItem_returns_saved_order 9
              (mkMem foreign_item_world order_with_item)
              (mkOrder 7 (JObjectId 4 50) JUndefined [] 0 (Some 5) "NEW"))
    as (found & Hfound & _ & _ & Htotal & _); [reflexivity |].
  exists found. split; [exact Hfound |]. simpl in Htotal. lia.
Defined.

(** X22.  [removeOrderItem] is not atomic either: when the item is found
    and deleted and the save of the order then throws, the caller gets the
    exception although the item is gone from the collection, and no order
    has been saved. *)
Theorem removeOrderItem_failed_order_save_loses_item (itemId : nat) (m : mem Order)
        (found : OrderItem) (e : exn) (rest : list (option exn)) :
  faults (ext m) = None :: None :: Some e :: rest →
  orderItemColl (ext m) !! itemId = Some found →
  let r := removeOrderItem itemId m in
  r.1 = Throw e
  ∧ orderItemColl (ext r.2) !! itemId = None
  ∧ total (self r.2) = total (self m) - oi_price found
  ∧ savedOrders (ext r.2) = savedOrders (ext m).
Proof.
  intros Hscript Hfound r. subst r. destruct m as [[fs ms coll sd so] o].
  simpl in *. subst fs.
  unfold removeOrderItem, mbind, M_bind, await, required, mret, M_ret.
  unfold OrderItem_findById, OrderItem_remove. simpl.
  rewrite Hfound. simpl. rewrite lookup_delete_eq. repeat split.
Qed.

Lemma removeOrderItem_failed_order_save_loses_item_witness :
  (removeOrderItem 9
     (mkMem (mkWorld [None; None; Some outage] []
                     {[ 9%nat := mkOrderItem 1 5 (ModsArray []) ]} [] [])
            order_with_item)).1
  = Throw outage.
Proof.
  apply (removeOrderItem_failed_order_save_loses_item 9
           (mkMem (mkWorld [None; None; Some outage] []
                           {[ 9%nat := mkOrderItem 1 5 (ModsArray []) ]} [] [])
                  order_with_item)
           (mkOrderItem 1 5 (ModsArray [])) outage []); reflexivity.
Defined.



(** X24.  Neither call touches another stored item: whatever happens,
    [addOrderItem] changes the collection at the new item's id at most, and
    [removeOrderItem] at the id it is given at most. *)
Theorem ledger_calls_touch_one_item (w : world) (order : Order) (item : Item)
        (itemId k : nat) :
  (k ≠ new_id item w →
   orderItemColl (ext (addOrderItem (mkMem w (order, item))).2) !! k
   = orderItemColl w !! k)
  ∧ (k ≠ itemId →
     orderItemColl (ext (removeOrderItem itemId (mkMem w order)).2) !! k
     = orderItemColl w !! k).
Proof.
  split; intros Hother.
  - unfold addOrderItem, mbind, M_bind. simpl.
    destruct (modifications item) as [entries | |]; simpl; try reflexivity.
    destruct (forEach_modifications entries w order
                (set_item_price (mi_price (menuItem item)) item))
      as (c & p & Hrun & _).
    rewrite Hrun. destruct c as [[] | e]; simpl; [| reflexivity].
    unfold await, OrderItem_save, Order_save, mret, M_ret. simpl.
    change (new_id (set_item_price p (set_item_price (mi_price (menuItem item)) item))
                   (consume w))
      with (new_id item w).
    destruct (next_fault w); simpl; [reflexivity |].
    destruct (orderItemColl w !! new_id item w); simpl; [reflexivity |].
    match goal with |- context [next_fault ?w1] => destruct (next_fault w1) end;
      simpl; [| destruct (validate_order _); simpl];
      apply lookup_insert_ne; congruence.
  - unfold removeOrderItem, mbind, M_bind, await, required, throw, mret, M_ret.
    unfold OrderItem_findById, OrderItem_remove, Order_save. simpl.
    destruct (next_fault w); simpl; [reflexivity |].
    destruct (orderItemColl w !! itemId); simpl; [| reflexivity].
    match goal with |- context [next_fault ?w1] => destruct (next_fault w1) end;
      simpl; [reflexivity |].
    match goal with |- context [next_fault ?w1] => destruct (next_fault w1) end;
      simpl; [| destruct (validate_order _); simpl];
      apply lookup_delete_ne; congruence.
Qed.

Lemma ledger_calls_touch_one_item_witness :
  orderItemColl (ext (addOrderItem (mkMem foreign_item_world
                                          (new_order, scenario_item))).2) !! 9%nat
  = Some (mkOrderItem 1 5 (ModsArray [])).
Proof.
  destruct (ledger_calls_touch_one_item foreign_item_world new_order scenario_item
              3 9) as [Hadd _].
  rewrite Hadd; [reflexivity | discriminate].
Defined.

(** ** changeDisposition *)

Lemma validate_order_any_disposition (s : string) (o : Order) :
  validate_order (set_disposition s o) = validate_order o.
Proof. reflexivity. Qed.

(** X25.  Any string is taken as the new disposition: on an order that was
    valid as it stood and with the database up, [changeDisposition] returns
    the order with that disposition and everything else as before, and
    saves it. *)
Theorem changeDisposition_saves_any_string (s : string) (m : mem Order) :
  next_fault (ext m) = None →
  validate_order (self m) = None →
  (changeDisposition s m).1 = Return (Success (set_disposition s (self m)))
  ∧ self (changeDisposition s m).2 = set_disposition s (self m)
  ∧ savedOrders (ext (changeDisposition s m).2)
    = (savedOrders (ext m) ++ [set_disposition s (self m)])%list.
Proof.
  intros Hup Hvalid. destruct m as [w o]. simpl in *.
  unfold changeDisposition, Order_save. unfold_monad. simpl.
  rewrite Hup. simpl. rewrite validate_order_any_disposition, Hvalid. repeat split.
Qed.

Lemma changeDisposition_saves_any_string_witness :
  (changeDisposition "CANCELED" (mkMem quiet taken_order)).1
  = Return (Success (set_disposition "CANCELED" taken_order)).
Proof.
  apply (changeDisposition_saves_any_string "CANCELED" (mkMem quiet taken_order));
    reflexivity.
Defined.

(** X26.  When the save throws, [changeDisposition] hands the exception
    back as it is, under [error], with [functionName: "changeDisposition"];
    nothing is saved, and the in-memory order already carries the new
    disposition. *)
Theorem changeDisposition_failed_save (s : string) (m : mem Order) (e : exn) :
  next_fault (ext m) = Some e
  ∨ (next_fault (ext m) = None ∧ validate_order (self m) = Some e) →
  (changeDisposition s m).1 = Return (Caught e "changeDisposition")
  ∧ disposition (self (changeDisposition s m).2) = s
  ∧ savedOrders (ext (changeDisposition s m).2) = savedOrders (ext m).
Proof.
  intros Hfail. destruct m as [w o]. simpl in *.
  unfold changeDisposition, Order_save. unfold_monad. simpl.
  destruct Hfail as [Hdown | [Hup Hinvalid]].
  - rewrite Hdown. repeat split.
  - rewrite Hup. simpl. rewrite validate_order_any_disposition, Hinvalid. repeat split.
Qed.

Lemma changeDisposition_failed_save_witness :
  (changeDisposition "PAID" (mkMem failing new_order)).1
  = Return (Caught outage "changeDisposition")
  ∧ disposition (self (changeDisposition "PAID" (mkMem failing new_order)).2) = "PAID".
Proof.
  destruct (changeDisposition_failed_save "PAID" (mkMem failing new_order) outage)
    as (Hret & Hdisp & _); [left; reflexivity |].
  split; [exact Hret | exact Hdisp].
Defined.
